(** * The login route: [app/routes/login.tsx]

    A shallow embedding of the route's two server-side handlers, [loader]
    and [action], and of the web-platform values they manipulate.

    The handlers are [async] functions: every [await] on a collaborator
    ([getUserId], [verifyLogin], [createUserSession]) is a node of a small
    free monad [Async], so a handler is a finite tree that can be run against
    any implementation of the collaborators while the calls it performs are
    recorded. *)

From Stdlib Require Import Ascii String List ZArith Bool Arith Lia.
From ExtLib Require Import Structures.Monad.
Import ListNotations.
Import MonadNotation.
Local Open Scope string_scope.
Local Open Scope monad_scope.

Set Implicit Arguments.

(** ** Web-platform values *)

(** A JS string is modelled by [string]: one character stands for one code
    unit, [String.length] for the [.length] property and [String.eqb] for
    [===] between two strings. *)

Record File : Type := mkFile
  { fileName : string;
    fileType : string;
    fileSize : Z }.

(** [FormDataEntryValue = string | File]. *)
Inductive FormDataEntryValue : Type :=
| EntryString (s : string)
| EntryFile (f : File).

(** A [FormData] is an ordered list of entries; names may repeat. *)
Module FormData.

Definition t : Type := list (string * FormDataEntryValue).

(** [formData.get(name)]: the value of the first entry called [name], or
    [null] (here [None]) when there is none. *)
Fixpoint get (formData : t) (name : string) : option FormDataEntryValue :=
  match formData with
  | [] => None
  | (n, v) :: rest => if String.eqb n name then Some v else get rest name
  end.

End FormData.

(** A request whose body is a submitted form: [req_formData] is what
    [await request.formData()] resolves to. *)
Record Request : Type := mkRequest
  { req_method : string;
    req_url : string;
    req_headers : list (string * string);
    req_formData : FormData.t }.

(** The JSON values the route builds: strings and object literals. *)
#[local] Set Warnings "-register-all".
Inductive Json : Type :=
| JNull
| JString (s : string)
| JObject (members : list (string * Json)).
#[local] Set Warnings "register-all".

(** Property access [obj.name]; [None] is [undefined]. *)
Definition member (name : string) (j : Json) : option Json :=
  match j with
  | JObject members =>
      option_map snd
        (find (fun m => String.eqb (fst m) name) members)
  | _ => None
  end.

Record Response : Type := mkResponse
  { status : Z;
    headers : list (string * string);
    body : option Json }.

(** [json(data, init)] of [@remix-run/node]: a response whose body is [data]
    serialised, with the JSON content type and the status of [init], 200
    when [init] is left out. *)
Definition json (data : Json) (init : option Z) : Response :=
  {| status := match init with Some s => s | None => 200%Z end;
     headers := [("Content-Type", "application/json; charset=utf-8")];
     body := Some data |}.

(** [redirect(url)] of [@remix-run/node]: status 302 and a [Location]. *)
Definition redirect (url : string) : Response :=
  {| status := 302%Z;
     headers := [("Location", url)];
     body := None |}.

(** ** Collaborator interfaces *)

(** [User["id"]] is declared in [~/models/user.server]; the route only passes
    it on and tests its truthiness.  Identifiers are JS strings, the kind of
    value a cookie session stores; the identifier of an account is not the
    empty string. *)
Definition UserId : Type := string.

Record User : Type := mkUser
  { id : UserId;
    userEmail : string }.

(** The argument object of [createUserSession]. *)
Record CreateUserSessionArgs : Type := mkArgs
  { request : Request;
    userId : UserId;
    remember : bool;
    redirectTo : string }.

(** The awaited calls, with the value each one resolves to.  [verifyLogin]
    receives the [email] entry as it is at run time: the type guard
    [email is string] of [validateEmail] is erased by compilation. *)
Inductive Call : Type :=
| CallGetUserId (request : Request)
| CallVerifyLogin (email : option FormDataEntryValue) (password : string)
| CallCreateUserSession (args : CreateUserSessionArgs).

Definition Answer (c : Call) : Type :=
  match c with
  | CallGetUserId _ => option UserId
  | CallVerifyLogin _ _ => option User
  | CallCreateUserSession _ => Response
  end.

(** ** The [Async] monad *)

Inductive Async (A : Type) : Type :=
| Ret (a : A)
| Await (c : Call) (k : Answer c -> Async A).

Arguments Ret {A} a.
Arguments Await {A} c k.

Fixpoint Async_bind {A B : Type} (m : Async A) (f : A -> Async B) : Async B :=
  match m with
  | Ret a => f a
  | Await c k => Await c (fun x => Async_bind (k x) f)
  end.

#[export] Instance Monad_Async : Monad Async :=
  {| ret := @Ret; bind := @Async_bind |}.

Definition getUserId (request : Request) : Async (option UserId) :=
  Await (CallGetUserId request) Ret.

Definition verifyLogin (email : option FormDataEntryValue) (password : string)
  : Async (option User) :=
  Await (CallVerifyLogin email password) Ret.

Definition createUserSession (args : CreateUserSessionArgs) : Async Response :=
  Await (CallCreateUserSession args) Ret.

(** ** JS operators used by the route *)

(** [ToBoolean] on [string | undefined]: only a non-empty string is truthy. *)
Definition truthy (v : option string) : bool :=
  match v with
  | Some s => negb (String.eqb s "")
  | None => false
  end.

(** The narrowing done by [typeof v === "string"]: the string itself when
    [v] is one, [None] for a [File] and for [null]. *)
Definition asString (v : option FormDataEntryValue) : option string :=
  match v with
  | Some (EntryString s) => Some s
  | _ => None
  end.

(** [v === s] for a form entry [v] and a string literal [s]. *)
Definition strictEq (v : option FormDataEntryValue) (s : string) : bool :=
  match v with
  | Some (EntryString x) => String.eqb x s
  | _ => false
  end.

(** ** The handlers *)

Definition loader (request : Request) : Async Response :=
  userId <- getUserId request ;;
  if truthy userId then ret (redirect "/")
  else ret (json (JObject []) None).

Section Action.

(** [validateEmail] is imported from [~/utils]; a synchronous predicate on
    the raw form entry. *)
Variable validateEmail : option FormDataEntryValue -> bool.

Definition action (request : Request) : Async Response :=
  let formData := req_formData request in
  let email := FormData.get formData "email" in
  let password := FormData.get formData "password" in
  let redirectTo := FormData.get formData "redirectTo" in
  let remember := FormData.get formData "remember" in
  if negb (validateEmail email) then
    ret (json (JObject [("errors", JObject [("email", JString "Email is invalid")])])
              (Some 400%Z))
  else
    match asString password with
    | None =>
        ret (json (JObject [("errors",
                    JObject [("password", JString "Password is required")])])
                  (Some 400%Z))
    | Some password =>
        if Nat.ltb (String.length password) 8 then
          ret (json (JObject [("errors",
                      JObject [("password", JString "Password is too short")])])
                    (Some 400%Z))
        else
          user <- verifyLogin email password ;;
          match user with
          | None =>
              ret (json (JObject [("errors",
                          JObject [("email", JString "Invalid email or password")])])
                        (Some 400%Z))
          | Some user =>
              createUserSession
                {| request := request;
                   userId := id user;
                   remember := if strictEq remember "on" then true else false;
                   redirectTo := match asString redirectTo with
                                 | Some redirectTo => redirectTo
                                 | None => "/notes"
                                 end |}
          end
    end.

End Action.

(** ** Running a handler *)

Record Outcome (World A : Type) : Type := mkOutcome
  { result : A;
    world : World;
    calls : list Call }.

Section Run.

(** Whatever the collaborators read and write (the user store, the session
    storage) is the [World]; each collaborator maps a world to the value its
    promise resolves to and the world it leaves.  A promise that rejects or
    never settles is not modelled. *)
Variable World : Type.
Variable getUserIdImpl : Request -> World -> option UserId * World.
Variable verifyLoginImpl :
  option FormDataEntryValue -> string -> World -> option User * World.
Variable createUserSessionImpl : CreateUserSessionArgs -> World -> Response * World.

Definition handle (c : Call) : World -> Answer c * World :=
  match c with
  | CallGetUserId r => getUserIdImpl r
  | CallVerifyLogin e p => verifyLoginImpl e p
  | CallCreateUserSession a => createUserSessionImpl a
  end.

(** [run p w] resolves the awaits of [p] in program order, threading the
    world and logging each call. *)
Fixpoint run {A : Type} (p : Async A) (w : World) : Outcome World A :=
  match p with
  | Ret a => {| result := a; world := w; calls := [] |}
  | Await c k =>
      let (x, w') := handle c w in
      let o := run (k x) w' in
      {| result := result o; world := world o; calls := c :: calls o |}
  end.

End Run.

(** ** Reading a response *)

(** What the page reads back as [actionData?.errors?.email] and
    [actionData?.errors?.password]. *)
Definition errorField (field : string) (r : Response) : option Json :=
  match body r with
  | Some data =>
      match member "errors" data with
      | Some errors => member field errors
      | None => None
      end
  | None => None
  end.

Definition isSet (v : option Json) : bool :=
  match v with
  | Some _ => true
  | None => false
  end.

(** The value of the first header called [name]. *)
Definition header (name : string) (r : Response) : option string :=
  option_map snd (find (fun h => String.eqb (fst h) name) (headers r)).

(** ** The checks of the action, as the specification lists them *)

Inductive Check : Type :=
| EmailFormat
| PasswordIsString
| PasswordLength
| Credentials.

(** The messages the specification allows in a 400 response. *)
Definition errorMessages : list string :=
  ["Email is invalid"; "Password is required"; "Password is too short";
   "Invalid email or password"].

Section FailedCheck.

Variable validateEmail : option FormDataEntryValue -> bool.
Variable World : Type.
Variable verifyLoginImpl :
  option FormDataEntryValue -> string -> World -> option User * World.

(** The first check a submission fails, in the order of the specification:
    email format, password being a string, password length, then the
    credentials themselves; [None] when every check passes. *)
Definition failedCheck (request : Request) (w : World) : option Check :=
  let email := FormData.get (req_formData request) "email" in
  let password := FormData.get (req_formData request) "password" in
  if validateEmail email then
    match asString password with
    | Some p =>
        if Nat.leb 8 (String.length p) then
          match fst (verifyLoginImpl email p w) with
          | Some _ => None
          | None => Some Credentials
          end
        else Some PasswordLength
    | None => Some PasswordIsString
    end
  else Some EmailFormat.

End FailedCheck.

(** ** The page: [LoginPage]

    What the component computes before it returns its markup, and the
    controls of the form it renders. *)

(** [URLSearchParams]: an ordered list of name/value pairs; [get] is the
    value of the first pair called [name], or [null]. *)
Module URLSearchParams.

Definition t : Type := list (string * string).

Fixpoint get (searchParams : t) (name : string) : option string :=
  match searchParams with
  | [] => None
  | (n, v) :: rest => if String.eqb n name then Some v else get rest name
  end.

End URLSearchParams.

(** [const redirectTo = searchParams.get("redirectTo") || "/notes"]: the
    left operand when it is truthy, the right one otherwise. *)
Definition LoginPage_redirectTo (searchParams : URLSearchParams.t) : string :=
  let v := URLSearchParams.get searchParams "redirectTo" in
  match v with
  | Some s => if truthy v then s else "/notes"
  | None => "/notes"
  end.

(** [ToBoolean] on a JSON value or [undefined]: [null], [undefined] and the
    empty string are falsy, objects and the other strings truthy. *)
Definition truthyJson (v : option Json) : bool :=
  match v with
  | Some (JString s) => negb (String.eqb s "")
  | Some (JObject _) => true
  | Some JNull => false
  | None => false
  end.

(** [actionData?.errors?.field], for the [actionData] that [useActionData()]
    returns: [undefined] ([None]) before any submission, the body of the
    action's JSON response after one. *)
Definition actionErrors (field : string) (actionData : option Json) : option Json :=
  match actionData with
  | Some data =>
      match member "errors" data with
      | Some errors => member field errors
      | None => None
      end
  | None => None
  end.

(** The two inputs that hold a ref: [emailRef] and [passwordRef]. *)
Inductive Field : Type :=
| EmailField
| PasswordField.

(** The body of the [useEffect]: the input whose [focus()] is called when
    [actionData] changes, if any. *)
Definition focusEffect (actionData : option Json) : option Field :=
  if truthyJson (actionErrors "email" actionData) then Some EmailField
  else if truthyJson (actionErrors "password" actionData) then Some PasswordField
  else None.

(** The [isInvalid] property of a [FormControl]:
    [actionData?.errors?.field ? true : undefined]. *)
Definition isInvalid (field : string) (actionData : option Json) : option bool :=
  if truthyJson (actionErrors field actionData) then Some true else None.

(** The controls inside the rendered [<Form method="post" noValidate>]. *)
Inductive Control : Type :=
| InputControl (name type : string)
| HiddenControl (name value : string)
| SubmitButton
| CheckboxControl (name value : string).

(** The controls of the login form, in document order.  The checkbox is
    Chakra's [<Checkbox name="remember">]: it hands its [<input>] a [value]
    property that is [undefined], which React renders as the empty value, so
    the value of the box is the empty string and not the default "on". *)
Definition LoginPage_controls (searchParams : URLSearchParams.t) : list Control :=
  [InputControl "email" "email";
   InputControl "password" "password";
   HiddenControl "redirectTo" (LoginPage_redirectTo searchParams);
   SubmitButton;
   CheckboxControl "remember" ""].

(** What the visitor did with the form: the current value of each text
    input and the state of each checkbox, by control name. *)
Record UserInput : Type := mkUserInput
  { typed : string -> string;
    checked : string -> bool }.

(** The entry list a browser builds when the form is submitted: an email or
    password input contributes its current value, empty or not (the form is
    [noValidate]); a hidden input its value; a checkbox its value when it
    is checked and nothing otherwise; a button without a name nothing. *)
Definition entryList (controls : list Control) (u : UserInput) : FormData.t :=
  flat_map
    (fun c =>
       match c with
       | InputControl name _ => [(name, EntryString (typed u name))]
       | HiddenControl name value => [(name, EntryString value)]
       | SubmitButton => []
       | CheckboxControl name value =>
           if checked u name then [(name, EntryString value)] else []
       end)
    controls.

(** ** A concrete deployment

    Small implementations of the collaborators, on which the statements
    below are exercised. *)

Module Sample.

(** [s.includes(c)] for a one-character [c]. *)
Fixpoint includes (s : string) (c : Ascii.ascii) : bool :=
  match s with
  | EmptyString => false
  | String x rest => if Ascii.eqb x c then true else includes rest c
  end.

(** Modelled from the spec: [validateEmail] of [~/utils] is not among the
    sources; the specification describes it as a check of the value against
    a simple pattern.  Here: a string of more than three characters that
    contains an at sign. *)
Definition validateEmail (email : option FormDataEntryValue) : bool :=
  match asString email with
  | Some s => Nat.ltb 3 (String.length s) && includes s "@"%char
  | None => false
  end.

(** The user store, with each account's password, and the open sessions. *)
Record World : Type := mkWorld
  { accounts : list (User * string);
    sessions : list CreateUserSessionArgs }.

(** The session cookie carries the identifier of the logged-in user. *)
Definition getUserId (request : Request) (w : World) : option UserId * World :=
  (option_map snd
     (find (fun h => String.eqb (fst h) "Cookie") (req_headers request)), w).

Definition verifyLogin (email : option FormDataEntryValue) (password : string)
    (w : World) : option User * World :=
  match asString email with
  | Some e =>
      (option_map fst
         (find (fun a => String.eqb (userEmail (fst a)) e
                         && String.eqb (snd a) password) (accounts w)), w)
  | None => (None, w)
  end.

Definition createUserSession (args : CreateUserSessionArgs) (w : World)
  : Response * World :=
  ({| status := 302%Z;
      headers := [("Location", redirectTo args); ("Set-Cookie", userId args)];
      body := None |},
   {| accounts := accounts w; sessions := args :: sessions w |}).

Definition rachel : User := {| id := "ckx1"; userEmail := "rachel@remix.run" |}.

Definition initial : World :=
  {| accounts := [(rachel, "racheliscool")]; sessions := [] |}.

Definition submit (form : FormData.t) : Request :=
  {| req_method := "POST";
     req_url := "/login";
     req_headers := [];
     req_formData := form |}.

Definition visit (cookies : list (string * string)) : Request :=
  {| req_method := "GET";
     req_url := "/login";
     req_headers := cookies;
     req_formData := [] |}.

(** Correct credentials, with a redirect target and the checkbox ticked. *)
Definition goodForm : FormData.t :=
  [("email", EntryString "rachel@remix.run");
   ("password", EntryString "racheliscool");
   ("redirectTo", EntryString "/notes/new");
   ("remember", EntryString "on")].

(** Correct credentials and nothing else. *)
Definition bareForm : FormData.t :=
  [("email", EntryString "rachel@remix.run");
   ("password", EntryString "racheliscool")].

Definition wrongPassword : FormData.t :=
  [("email", EntryString "rachel@remix.run");
   ("password", EntryString "rachelisnotcool")].

Definition unknownAccount : FormData.t :=
  [("email", EntryString "nobody@remix.run");
   ("password", EntryString "whatever-it-is")].

Definition badEmail : FormData.t :=
  [("email", EntryString "rachel"); ("password", EntryString "racheliscool")].

Definition otherBadEmail : FormData.t :=
  [("email", EntryString "x"); ("password", EntryFile (mkFile "p.txt" "text/plain" 12))].

Definition shortPassword : FormData.t :=
  [("email", EntryString "rachel@remix.run"); ("password", EntryString "rachel")].

Definition noPassword : FormData.t :=
  [("email", EntryString "rachel@remix.run")].

(** The session that [goodForm] asks for. *)
Definition goodSession : CreateUserSessionArgs :=
  {| request := submit goodForm;
     userId := "ckx1";
     remember := true;
     redirectTo := "/notes/new" |}.

(** A visitor sent to the login page from [/notes/42], who types the right
    credentials and ticks the checkbox. *)
Definition searchParams : URLSearchParams.t := [("redirectTo", "/notes/42")].


(** The same visitor leaving the password empty. *)
Definition emptyPassword : UserInput :=
  {| typed := fun name =>
       if String.eqb name "email" then "rachel@remix.run" else "";
     checked := fun _ => false |}.

(** An [actionData] whose email message is the empty string. *)
Definition emptyEmailMessage : option Json :=
  Some (JObject [("errors",
          JObject [("email", JString "");
                   ("password", JString "Password is required")])]).

(** An [actionData] with a message on both fields. *)
Definition bothErrors : option Json :=
  Some (JObject [("errors",
          JObject [("email", JString "Email is invalid");
                   ("password", JString "Password is required")])]).

Definition pageRequest (sp : URLSearchParams.t) (u : UserInput) : Request :=
  {| req_method := "POST";
     req_url := "/login";
     req_headers := [];
     req_formData := entryList (LoginPage_controls sp) u |}.

Definition runAction (form : FormData.t) : Outcome World Response :=
  run getUserId verifyLogin createUserSession
      (action validateEmail (submit form)) initial.

End Sample.

(** * Properties *)

Section Properties.

Variable validateEmail : option FormDataEntryValue -> bool.
Variable World : Type.
Variable getUserIdImpl : Request -> World -> option UserId * World.
Variable verifyLoginImpl :
  option FormDataEntryValue -> string -> World -> option User * World.
Variable createUserSessionImpl : CreateUserSessionArgs -> World -> Response * World.

Local Notation "'exec'" :=
  (run getUserIdImpl verifyLoginImpl createUserSessionImpl) (only parsing).

#[local] Arguments Nat.leb : simpl never.
#[local] Arguments Nat.ltb : simpl never.

(** Case analysis along the branches of [action]: the email check, the two
    password checks, the answer of [verifyLogin] and that of
    [createUserSession]. *)
Ltac action_cases :=
  unfold action, verifyLogin, createUserSession; simpl;
  repeat match goal with
    | |- context [validateEmail ?e] =>
        let E := fresh "Hemail" in destruct (validateEmail e) eqn:E; simpl
    | |- context [match asString ?v with _ => _ end] =>
        let E := fresh "Hstring" in destruct (asString v) eqn:E; simpl
    | |- context [Nat.ltb ?n 8] =>
        let E := fresh "Hlen" in destruct (Nat.ltb n 8) eqn:E; simpl
    | |- context [verifyLoginImpl ?e ?p ?w] =>
        let E := fresh "Hverify" in
        destruct (verifyLoginImpl e p w) as [[?user |] ?w] eqn:E; simpl
    | |- context [createUserSessionImpl ?a ?w] =>
        let E := fresh "Hsession" in
        destruct (createUserSessionImpl a w) as [?resp ?w] eqn:E; simpl
    end.

(** Boolean length tests in the context, as inequalities. *)
Ltac reflect_lengths :=
  repeat match goal with
    | H : Nat.ltb _ _ = true |- _ => apply Nat.ltb_lt in H
    | H : Nat.ltb _ _ = false |- _ => apply Nat.ltb_ge in H
    | H : Nat.leb _ _ = true |- _ => apply Nat.leb_le in H
    | H : Nat.leb _ _ = false |- _ => apply Nat.leb_gt in H
    end.

(** ** The [Async] monad and [run] *)

(** Running [m >>= f] is running [m], then [f] on its result from the world
    [m] left, with the two logs appended. *)
Lemma run_bind :
  forall (A B : Type) (m : Async A) (f : A -> Async B) (w : World),
    exec (Async_bind m f) w =
    let o1 := exec m w in
    let o2 := exec (f (result o1)) (world o1) in
    {| result := result o2; world := world o2; calls := calls o1 ++ calls o2 |}.
Proof.
  intros A B m f; induction m as [a | c k IH]; intros w; simpl.
  - destruct (exec (f a) w); reflexivity.
  - destruct (handle getUserIdImpl verifyLoginImpl createUserSessionImpl c w) as [x w'].
    rewrite IH; reflexivity.
Qed.

(** ** The loader *)

(** The loader asks for the user id once and builds its response from the
    truthiness of the answer. *)
Lemma run_loader :
  forall (request : Request) (w : World),
    exec (loader request) w =
    {| result := if truthy (fst (getUserIdImpl request w))
                 then redirect "/" else json (JObject []) None;
       world := snd (getUserIdImpl request w);
       calls := [CallGetUserId request] |}.
Proof.
  intros request w; unfold loader, getUserId.
  cbv beta delta [bind ret Monad_Async] iota.
  rewrite run_bind; simpl.
  destruct (getUserIdImpl request w) as [userId w']; simpl.
  destruct (truthy userId); reflexivity.
Qed.

(** C3: when [getUserId] resolves to a user id, the non-empty identifier of
    the account the request is authenticated as, the loader answers with a
    redirect to [/] (status 302, [Location: /], no body) and not with the
    render payload; when it resolves to [null] the loader answers with the
    render payload [json({})] (status 200, an empty JSON object, no
    [Location]) and does not redirect. *)
Theorem loader_redirects_authenticated :
  forall (request : Request) (w : World),
    let r := result (exec (loader request) w) in
    (forall uid : UserId,
        fst (getUserIdImpl request w) = Some uid -> uid <> "" ->
        r = redirect "/" /\ status r = 302%Z /\ header "Location" r = Some "/"
        /\ body r = None)
    /\ (fst (getUserIdImpl request w) = None ->
        r = json (JObject []) None /\ status r = 200%Z
        /\ header "Location" r = None /\ body r = Some (JObject [])).
Proof.
  intros request w r; subst r; rewrite run_loader; simpl; split.
  - intros uid Huid Hne; rewrite Huid; simpl.
    destruct (String.eqb_spec uid "") as [E | _]; [contradiction | simpl].
    repeat split.
  - intros Hnone; rewrite Hnone; simpl; repeat split.
Qed.

(** ** The action *)

(** C1: a submission with a valid email, a string password of at least 8
    characters and credentials that [verifyLogin] accepts is answered with
    exactly the response of [createUserSession], called once, after
    [verifyLogin], with the request, the id of the verified user and as
    redirect target the [redirectTo] field when it is a string and [/notes]
    when it is anything else or absent. *)
Theorem action_success_delegates :
  forall (req : Request) (w : World) (password : string) (user : User),
    let form := req_formData req in
    let email := FormData.get form "email" in
    validateEmail email = true ->
    FormData.get form "password" = Some (EntryString password) ->
    8 <= String.length password ->
    fst (verifyLoginImpl email password w) = Some user ->
    exists args : CreateUserSessionArgs,
      calls (exec (action validateEmail req) w)
        = [CallVerifyLogin email password; CallCreateUserSession args]
      /\ result (exec (action validateEmail req) w)
        = fst (createUserSessionImpl args (snd (verifyLoginImpl email password w)))
      /\ request args = req
      /\ userId args = id user
      /\ (forall s, FormData.get form "redirectTo" = Some (EntryString s) ->
                    redirectTo args = s)
      /\ ((forall s, FormData.get form "redirectTo" <> Some (EntryString s)) ->
          redirectTo args = "/notes").
Proof.
  intros req w password user form email Hvalid Hpw Hlen Huser.
  subst form email.
  unfold action, verifyLogin, createUserSession.
  rewrite Hvalid, Hpw; simpl.
  apply Nat.ltb_ge in Hlen; rewrite Hlen; simpl.
  destruct (verifyLoginImpl _ password w) as [u w1] eqn:Hv.
  simpl in Huser; subst u; simpl.
  match goal with
  | |- context [createUserSessionImpl ?a w1] =>
      exists a; destruct (createUserSessionImpl a w1) as [resp w2] eqn:Hs
  end.
  simpl; repeat split.
  - intros s Hs'; rewrite Hs'; reflexivity.
  - intros Hno.
    destruct (FormData.get (req_formData req) "redirectTo") as [[s | f] |];
      simpl; try reflexivity.
    exfalso; apply (Hno s); reflexivity.
Qed.

(** C2: the checks run in the order email format, password is a string,
    password length.  The first one that fails decides the answer: a 400
    response with the message of that check on its field, whatever the later
    checks would have said, and with no call made; [verifyLogin] is called
    only after all three have passed. *)
Theorem action_validation_order :
  forall (req : Request) (w : World),
    let email := FormData.get (req_formData req) "email" in
    let password := FormData.get (req_formData req) "password" in
    let o := exec (action validateEmail req) w in
    (validateEmail email = false ->
       status (result o) = 400%Z
       /\ errorField "email" (result o) = Some (JString "Email is invalid")
       /\ calls o = [])
    /\ (validateEmail email = true -> asString password = None ->
       status (result o) = 400%Z
       /\ errorField "password" (result o) = Some (JString "Password is required")
       /\ calls o = [])
    /\ (forall p, validateEmail email = true -> asString password = Some p ->
       String.length p < 8 ->
       status (result o) = 400%Z
       /\ errorField "password" (result o) = Some (JString "Password is too short")
       /\ calls o = [])
    /\ (forall e p, In (CallVerifyLogin e p) (calls o) ->
       validateEmail email = true /\ asString password = Some p
       /\ 8 <= String.length p).
Proof.
  intros req w email password o; subst email password o.
  split; [| split; [| split]].
  - intros Hinvalid.
    unfold action; rewrite Hinvalid; simpl; repeat split.
  - intros Hvalid Hnot.
    unfold action; rewrite Hvalid, Hnot; simpl; repeat split.
  - intros p Hvalid Hstr Hshort.
    unfold action; rewrite Hvalid, Hstr; simpl.
    apply Nat.ltb_lt in Hshort; rewrite Hshort; simpl; repeat split.
  - intros e p.
    action_cases; intros Hin;
      repeat (destruct Hin as [Hin | Hin]); try discriminate; try contradiction.
    all: injection Hin as He Hp; subst; reflect_lengths;
      repeat split; assumption.
Qed.

(** C4: when the email and the password pass validation and [verifyLogin]
    resolves to no user, the answer is a 400 response whose errors object
    carries "Invalid email or password" on the email field. *)
Theorem action_rejects_unknown_credentials :
  forall (req : Request) (w : World) (p : string),
    let email := FormData.get (req_formData req) "email" in
    let password := FormData.get (req_formData req) "password" in
    validateEmail email = true ->
    asString password = Some p ->
    8 <= String.length p ->
    fst (verifyLoginImpl email p w) = None ->
    let r := result (exec (action validateEmail req) w) in
    status r = 400%Z
    /\ errorField "email" r = Some (JString "Invalid email or password").
Proof.
  intros req w p email password Hvalid Hpw Hlen Hnone r.
  subst email password r.
  unfold action, verifyLogin.
  rewrite Hvalid, Hpw; simpl.
  apply Nat.ltb_ge in Hlen; rewrite Hlen; simpl.
  destruct (verifyLoginImpl _ p w) as [u w1].
  simpl in Hnone; subst u; simpl.
  split; reflexivity.
Qed.

(** C5: when the email field fails [validateEmail], the answer is a 400
    response with a JSON body of shape [{ errors: { email } }], the email
    member being a message string. *)
Theorem action_rejects_invalid_email :
  forall (req : Request) (w : World),
    validateEmail (FormData.get (req_formData req) "email") = false ->
    let r := result (exec (action validateEmail req) w) in
    status r = 400%Z
    /\ header "Content-Type" r = Some "application/json; charset=utf-8"
    /\ exists message : string,
         body r = Some (JObject [("errors", JObject [("email", JString message)])])
         /\ errorField "email" r = Some (JString message).
Proof.
  intros req w Hinvalid r; subst r.
  unfold action; rewrite Hinvalid; simpl.
  split; [reflexivity | split; [reflexivity |]].
  exists "Email is invalid"; split; reflexivity.
Qed.

(** C6: when the email passes validation and the password is missing, not a
    string, or a string of fewer than 8 characters, the answer is a 400
    response carrying a message on the password field. *)
Theorem action_rejects_short_password :
  forall (req : Request) (w : World),
    let password := FormData.get (req_formData req) "password" in
    validateEmail (FormData.get (req_formData req) "email") = true ->
    (password = None
     \/ (exists f, password = Some (EntryFile f))
     \/ (exists p, password = Some (EntryString p) /\ String.length p < 8)) ->
    let r := result (exec (action validateEmail req) w) in
    status r = 400%Z
    /\ exists message : string, errorField "password" r = Some (JString message).
Proof.
  intros req w password Hvalid Hbad r; subst password r.
  unfold action; rewrite Hvalid; simpl.
  destruct Hbad as [Hnull | [[f Hfile] | [p [Hstr Hshort]]]].
  - rewrite Hnull; simpl; split; [reflexivity |].
    exists "Password is required"; reflexivity.
  - rewrite Hfile; simpl; split; [reflexivity |].
    exists "Password is required"; reflexivity.
  - rewrite Hstr; simpl.
    apply Nat.ltb_lt in Hshort; rewrite Hshort; simpl; split; [reflexivity |].
    exists "Password is too short"; reflexivity.
Qed.

(** C7: in every [createUserSession] call the action makes, the [remember]
    flag is [true] exactly when the submitted [remember] value is the string
    "on", and [false] for every other value, absent or not a string. *)
Theorem action_remember_flag :
  forall (req : Request) (w : World) (args : CreateUserSessionArgs),
    In (CallCreateUserSession args) (calls (exec (action validateEmail req) w)) ->
    (remember args = true <->
     FormData.get (req_formData req) "remember" = Some (EntryString "on"))
    /\ (FormData.get (req_formData req) "remember" <> Some (EntryString "on") ->
        remember args = false).
Proof.
  intros req w args.
  assert (Hon : forall v,
             strictEq v "on" = true <-> v = Some (EntryString "on")).
  { intros [[s | f] |]; simpl; split; try discriminate.
    - intros E; apply String.eqb_eq in E; subst s; reflexivity.
    - intros E; injection E as E; subst s; reflexivity. }
  action_cases; intros Hin;
    repeat (destruct Hin as [Hin | Hin]); try discriminate; try contradiction.
  all: injection Hin as Hargs; subst args; simpl;
    destruct (strictEq (FormData.get (req_formData req) "remember") "on") eqn:E.
  all: try (apply Hon in E; split; [tauto | congruence]).
  all: split; [| reflexivity];
    split; [discriminate | intros E'; apply Hon in E'; congruence].
Qed.

(** C8: every response the action builds itself, that is every response of
    a run in which [createUserSession] is not called, is a 400 response whose
    errors object has exactly one of [email] and [password] set. *)
Theorem action_error_single_field :
  forall (req : Request) (w : World),
    let o := exec (action validateEmail req) w in
    (forall args, ~ In (CallCreateUserSession args) (calls o)) ->
    status (result o) = 400%Z
    /\ xorb (isSet (errorField "email" (result o)))
            (isSet (errorField "password" (result o))) = true.
Proof.
  intros req w o; subst o.
  action_cases; intros Hnone; try (split; reflexivity).
  all: exfalso; eapply Hnone; right; left; reflexivity.
Qed.

(** C9: on every failure path (email invalid, password missing or not a
    string, password too short, or [verifyLogin] resolving to no user) the
    answer is a 400 response and [createUserSession] is not called; the only
    call that can have been made is [verifyLogin], so any part of the world
    that [verifyLogin] leaves alone, the session state in particular, is as
    it was before the request. *)
Theorem action_failure_creates_no_session :
  forall (req : Request) (w : World)
         (Session : Type) (sessionState : World -> Session),
    let email := FormData.get (req_formData req) "email" in
    let password := FormData.get (req_formData req) "password" in
    let o := exec (action validateEmail req) w in
    (forall e p w0, sessionState (snd (verifyLoginImpl e p w0)) = sessionState w0) ->
    (validateEmail email = false
     \/ asString password = None
     \/ (exists p, asString password = Some p /\ String.length p < 8)
     \/ (exists p, asString password = Some p
                   /\ fst (verifyLoginImpl email p w) = None)) ->
    status (result o) = 400%Z
    /\ (forall args, ~ In (CallCreateUserSession args) (calls o))
    /\ (calls o = [] \/ exists p, calls o = [CallVerifyLogin email p])
    /\ sessionState (world o) = sessionState w.
Proof.
  intros req w Session sessionState email password o Hkeep Hfail.
  subst email password o; revert Hfail.
  action_cases; intros Hfail.
  (* the branches that answer 400 *)
  all: try (split; [reflexivity |]; split; [intros args [E | []]; discriminate |];
            split; [right; eexists; reflexivity |];
            match goal with
            | H : verifyLoginImpl ?e ?p ?w0 = (_, ?w1) |- _ =>
                change w1 with (snd (@pair (option User) World None w1));
                rewrite <- H; apply Hkeep
            end).
  all: try (split; [reflexivity |]; split; [intros args []|];
            split; [left; reflexivity | reflexivity]).
  (* the branch that creates a session contradicts every failure condition *)
  all: exfalso;
    destruct Hfail as [F | [F | [[p [F1 F2]] | [p [F1 F2]]]]];
    try discriminate;
    injection F1 as F1; subst p.
  all: try (apply Nat.ltb_ge in Hlen; lia).
  all: rewrite Hverify in F2; simpl in F2; discriminate.
Qed.

(** C10: every submission either passes all four checks, and then a session
    is created, or fails at one of them; the response to a failure is a 400
    response holding one message of the fixed set, and it is determined by
    the failed check alone: two submissions that fail at the same check,
    whatever their emails, passwords and worlds, get equal responses. *)
Theorem action_error_messages_constant :
  (forall (req : Request) (w : World),
      match failedCheck validateEmail verifyLoginImpl req w with
      | None =>
          exists args,
            In (CallCreateUserSession args) (calls (exec (action validateEmail req) w))
      | Some _ =>
          exists field message,
            In message errorMessages
            /\ result (exec (action validateEmail req) w)
               = json (JObject [("errors", JObject [(field, JString message)])])
                      (Some 400%Z)
      end)
  /\ (forall (req1 req2 : Request) (w1 w2 : World) (c : Check),
      failedCheck validateEmail verifyLoginImpl req1 w1 = Some c ->
      failedCheck validateEmail verifyLoginImpl req2 w2 = Some c ->
      result (exec (action validateEmail req1) w1)
      = result (exec (action validateEmail req2) w2)).
Proof.
  assert (Hdet : forall req w c,
             failedCheck validateEmail verifyLoginImpl req w = Some c ->
             result (exec (action validateEmail req) w)
             = json (JObject [("errors",
                       JObject [match c with
                                | EmailFormat => ("email", JString "Email is invalid")
                                | PasswordIsString =>
                                    ("password", JString "Password is required")
                                | PasswordLength =>
                                    ("password", JString "Password is too short")
                                | Credentials =>
                                    ("email", JString "Invalid email or password")
                                end])]) (Some 400%Z)).
  { intros req w c; unfold failedCheck.
    action_cases;
      repeat match goal with
        | |- context [Nat.leb 8 ?n] =>
            let E := fresh "Hleb" in destruct (Nat.leb 8 n) eqn:E
        end;
      intros Hc;
      reflect_lengths; try lia; try discriminate;
      injection Hc as Hc; subst c; reflexivity. }
  split.
  - intros req w.
    destruct (failedCheck validateEmail verifyLoginImpl req w) as [c |] eqn:Hc.
    + rewrite (Hdet _ _ _ Hc).
      destruct c; do 2 eexists; (split; [| reflexivity]); simpl; tauto.
    + revert Hc; unfold failedCheck.
      action_cases;
        repeat match goal with
          | |- context [Nat.leb 8 ?n] =>
              let E := fresh "Hleb" in destruct (Nat.leb 8 n) eqn:E
          end;
        intros Hc; reflect_lengths; try lia; try discriminate.
      all: eexists; right; left; reflexivity.
  - intros req1 req2 w1 w2 c H1 H2.
    rewrite (Hdet _ _ _ H1), (Hdet _ _ _ H2); reflexivity.
Qed.

(** ** Beyond the claims: the calls the handlers make *)

(** [typeof v === "string"] holds of string entries only. *)
Lemma asString_Some :
  forall (v : option FormDataEntryValue) (s : string),
    asString v = Some s <-> v = Some (EntryString s).
Proof.
  intros [[x | f] |] s; simpl; split; intros H; try discriminate;
    injection H as H; subst; reflexivity.
Qed.


(** X1: the loader makes one call, [getUserId] on the request it was given;
    it neither verifies credentials nor creates a session, it leaves the
    world as [getUserId] left it, and it has two possible answers, the
    redirect to [/] and the render payload. *)
Theorem loader_only_asks_user_id :
  forall (req : Request) (w : World),
    let o := exec (loader req) w in
    calls o = [CallGetUserId req]
    /\ world o = snd (getUserIdImpl req w)
    /\ (result o = redirect "/" \/ result o = json (JObject []) None).
Proof.
  intros req w o; subst o; rewrite run_loader; simpl.
  split; [reflexivity | split; [reflexivity |]].
  destruct (truthy (fst (getUserIdImpl req w))); [left | right]; reflexivity.
Qed.

(** X2: the action never calls [getUserId], calls [verifyLogin] at most once
    and [createUserSession] at most once and only right after [verifyLogin];
    [verifyLogin] receives the submitted email entry and password string as
    they are. *)
Theorem action_call_shape :
  forall (req : Request) (w : World),
    let email := FormData.get (req_formData req) "email" in
    let password := FormData.get (req_formData req) "password" in
    let o := exec (action validateEmail req) w in
    calls o = []
    \/ exists p, password = Some (EntryString p)
         /\ (calls o = [CallVerifyLogin email p]
             \/ exists args,
                 calls o = [CallVerifyLogin email p; CallCreateUserSession args]).
Proof.
  intros req w email password o; subst email password o.
  action_cases; try (left; reflexivity).
  all: right; eexists; split; [apply asString_Some; eassumption |].
  all: try (left; reflexivity).
  all: right; eexists; reflexivity.
Qed.

(** X3: a session is created only for verified credentials.  When the run
    calls [createUserSession], the email passed validation, the password is
    a string of at least 8 characters, [verifyLogin] resolved to a user for
    exactly that email and password, the session is for that user's id and
    for this request, and the run ends with the response and the world of
    that call. *)
Theorem action_session_only_after_verification :
  forall (req : Request) (w : World) (args : CreateUserSessionArgs),
    let email := FormData.get (req_formData req) "email" in
    let password := FormData.get (req_formData req) "password" in
    let o := exec (action validateEmail req) w in
    In (CallCreateUserSession args) (calls o) ->
    validateEmail email = true
    /\ exists (p : string) (user : User),
         password = Some (EntryString p)
         /\ 8 <= String.length p
         /\ fst (verifyLoginImpl email p w) = Some user
         /\ userId args = id user
         /\ request args = req
         /\ result o
            = fst (createUserSessionImpl args (snd (verifyLoginImpl email p w)))
         /\ world o
            = snd (createUserSessionImpl args (snd (verifyLoginImpl email p w))).
Proof.
  intros req w args email password o; subst email password o.
  action_cases; intros Hin;
    repeat (destruct Hin as [Hin | Hin]); try discriminate; try contradiction.
  all: injection Hin as Hargs; subst args.
  all: reflect_lengths.
  all: split; [reflexivity |]; do 2 eexists.
  all: split; [apply asString_Some; eassumption |].
  all: rewrite Hverify; simpl; rewrite Hsession.
  all: repeat split; assumption.
Qed.

(** ** Beyond the claims: the page *)


(** X4: the redirect target the page puts in its hidden field is never the
    empty string: it is the first [redirectTo] search parameter when there
    is one and it is not empty, and [/notes] when the parameter is absent or
    empty. *)
Theorem LoginPage_redirectTo_default :
  forall searchParams : URLSearchParams.t,
    LoginPage_redirectTo searchParams <> ""
    /\ (forall v, URLSearchParams.get searchParams "redirectTo" = Some v ->
                  v <> "" -> LoginPage_redirectTo searchParams = v)
    /\ (URLSearchParams.get searchParams "redirectTo" = None
        \/ URLSearchParams.get searchParams "redirectTo" = Some "" ->
        LoginPage_redirectTo searchParams = "/notes").
Proof.
  intros searchParams; unfold LoginPage_redirectTo.
  destruct (URLSearchParams.get searchParams "redirectTo") as [v |]; simpl.
  - destruct (String.eqb_spec v "") as [E | N]; simpl.
    + split; [discriminate |].
      split; [intros v' Hv Hne; injection Hv as Hv; congruence | reflexivity].
    + split; [exact N |].
      split; [intros v' Hv _; injection Hv as Hv; exact Hv |].
      intros [H | H]; [discriminate | injection H as H; contradiction].
  - split; [discriminate |].
    split; [discriminate | reflexivity].
Qed.

(** X5: after a submission that the action rejects, the page, given the body
    of the response as [actionData], focuses one input, marks that input's
    control invalid and leaves the other one unmarked; the input is the
    password one exactly when the email passed validation and the password
    was missing, not a string or too short, and the email one otherwise. *)
Theorem LoginPage_focus_after_rejection :
  forall (req : Request) (w : World),
    let email := FormData.get (req_formData req) "email" in
    let password := FormData.get (req_formData req) "password" in
    let o := exec (action validateEmail req) w in
    let actionData := body (result o) in
    (forall args, ~ In (CallCreateUserSession args) (calls o)) ->
    (focusEffect actionData = Some EmailField
     /\ isInvalid "email" actionData = Some true
     /\ isInvalid "password" actionData = None
     /\ (validateEmail email = false
         \/ exists p, asString password = Some p /\ 8 <= String.length p))
    \/ (focusEffect actionData = Some PasswordField
        /\ isInvalid "password" actionData = Some true
        /\ isInvalid "email" actionData = None
        /\ validateEmail email = true
        /\ (asString password = None
            \/ exists p, asString password = Some p /\ String.length p < 8)).
Proof.
  intros req w email password o actionData; subst email password o actionData.
  action_cases; intros Hnone; reflect_lengths.
  all: first
    [ (* the session branch is excluded *)
      exfalso; eapply Hnone; right; left; reflexivity
    | left; repeat split;
      solve [ left; reflexivity
            | right; eexists; split; [reflexivity | assumption] ]
    | right; repeat split;
      solve [ left; reflexivity
            | right; eexists; split; [reflexivity | assumption] ] ].
Qed.

(** X6: focus and invalid marks agree for any [actionData]: the email input
    is focused exactly when the email control is marked invalid, the
    password input exactly when the password control is marked and the email
    one is not, and nothing is focused exactly when neither is marked.  A
    control is marked exactly when its message is truthy: a non-empty string
    (or an object); an empty-string message, [null] and a missing message
    count as no error. *)
Theorem LoginPage_focus_matches_invalid :
  forall actionData : option Json,
    (focusEffect actionData = Some EmailField <->
     isInvalid "email" actionData = Some true)
    /\ (focusEffect actionData = Some PasswordField <->
        isInvalid "email" actionData = None
        /\ isInvalid "password" actionData = Some true)
    /\ (focusEffect actionData = None <->
        isInvalid "email" actionData = None
        /\ isInvalid "password" actionData = None)
    /\ (forall field,
          isInvalid field actionData = Some true <->
          (exists s, actionErrors field actionData = Some (JString s) /\ s <> "")
          \/ (exists members, actionErrors field actionData = Some (JObject members)))
    /\ (forall field,
          actionErrors field actionData = Some (JString "")
          \/ actionErrors field actionData = Some JNull
          \/ actionErrors field actionData = None ->
          isInvalid field actionData = None).
Proof.
  intros actionData.
  split; [| split; [| split; [| split]]].
  - unfold focusEffect, isInvalid.
    destruct (truthyJson (actionErrors "email" actionData));
      destruct (truthyJson (actionErrors "password" actionData));
      split; intros; try discriminate; reflexivity.
  - unfold focusEffect, isInvalid.
    destruct (truthyJson (actionErrors "email" actionData));
      destruct (truthyJson (actionErrors "password" actionData));
      split; intros H; try discriminate; try (split; reflexivity);
      try reflexivity; destruct H; discriminate.
  - unfold focusEffect, isInvalid.
    destruct (truthyJson (actionErrors "email" actionData));
      destruct (truthyJson (actionErrors "password" actionData));
      split; intros H; try discriminate; try (split; reflexivity);
      try reflexivity; destruct H; discriminate.
  - intros field; unfold isInvalid.
    destruct (actionErrors field actionData) as [[| s | members] |]; simpl.
    + split; [discriminate | intros [[s [E _]] | [ms E]]; discriminate].
    + destruct (String.eqb_spec s "") as [E | N]; simpl.
      * split; [discriminate |].
        intros [[s' [E' N']] | [ms E']]; [| discriminate].
        injection E' as E'; congruence.
      * split; [intros _; left; exists s; split; [reflexivity | exact N] |].
        reflexivity.
    + split; [intros _; right; exists members; reflexivity | reflexivity].
    + split; [discriminate | intros [[s [E _]] | [ms E]]; discriminate].
  - intros field [E | [E | E]]; unfold isInvalid; rewrite E; reflexivity.
Qed.

(** ** Beyond the claims: the page and the action together *)

(** The four fields the action reads, in a submission of the page's form. *)
Lemma LoginPage_entries :
  forall (searchParams : URLSearchParams.t) (u : UserInput),
    let form := entryList (LoginPage_controls searchParams) u in
    FormData.get form "email" = Some (EntryString (typed u "email"))
    /\ FormData.get form "password" = Some (EntryString (typed u "password"))
    /\ FormData.get form "redirectTo"
       = Some (EntryString (LoginPage_redirectTo searchParams))
    /\ FormData.get form "remember"
       = if checked u "remember" then Some (EntryString "") else None.
Proof.
  intros searchParams u; simpl.
  repeat split.
  destruct (checked u "remember"); reflexivity.
Qed.


(** X8: a submission of the page's form is never answered with "Password is
    required": every field the form sends is a string, so a rejection is one
    of "Email is invalid", "Password is too short" and "Invalid email or
    password". *)
Theorem LoginPage_submission_rejections :
  forall (searchParams : URLSearchParams.t) (u : UserInput)
         (req : Request) (w : World),
    let o := exec (action validateEmail req) w in
    req_formData req = entryList (LoginPage_controls searchParams) u ->
    (forall args, ~ In (CallCreateUserSession args) (calls o)) ->
    exists field message,
      In message ["Email is invalid"; "Password is too short";
                  "Invalid email or password"]
      /\ result o
         = json (JObject [("errors", JObject [(field, JString message)])])
                (Some 400%Z).
Proof.
  intros searchParams u req w o Hform; subst o.
  destruct (LoginPage_entries searchParams u) as [He [Hp _]].
  unfold action, verifyLogin, createUserSession.
  rewrite Hform, He, Hp; simpl.
  destruct (validateEmail _); simpl.
  - destruct (Nat.ltb _ 8); simpl.
    + intros _; do 2 eexists; split; [| reflexivity]; simpl; tauto.
    + destruct (verifyLoginImpl _ _ w) as [[user |] w1]; simpl.
      * destruct (createUserSessionImpl _ w1); simpl.
        intros Hnone; exfalso; eapply Hnone; right; left; reflexivity.
      * intros _; do 2 eexists; split; [| reflexivity]; simpl; tauto.
  - intros _; do 2 eexists; split; [| reflexivity]; simpl; tauto.
Qed.

End Properties.

(** * The handlers on the concrete deployment *)

(** A complete login: one [verifyLogin], one [createUserSession], and the
    response of the latter. *)
Example runAction_goodForm :
  Sample.runAction Sample.goodForm
  = {| result := {| status := 302%Z;
                    headers := [("Location", "/notes/new"); ("Set-Cookie", "ckx1")];
                    body := None |};
       world := {| Sample.accounts := Sample.accounts Sample.initial;
                   Sample.sessions := [Sample.goodSession] |};
       calls := [CallVerifyLogin (Some (EntryString "rachel@remix.run"))
                                 "racheliscool";
                 CallCreateUserSession Sample.goodSession] |}.
Proof. reflexivity. Qed.

(** Without [redirectTo] and [remember]: to [/notes], not remembered. *)
Example runAction_bareForm :
  calls (Sample.runAction Sample.bareForm)
  = [CallVerifyLogin (Some (EntryString "rachel@remix.run")) "racheliscool";
     CallCreateUserSession
       {| request := Sample.submit Sample.bareForm;
          userId := "ckx1";
          remember := false;
          redirectTo := "/notes" |}].
Proof. reflexivity. Qed.

(** A password of six characters. *)
Example runAction_shortPassword :
  Sample.runAction Sample.shortPassword
  = {| result := json (JObject [("errors",
                         JObject [("password", JString "Password is too short")])])
                      (Some 400%Z);
       world := Sample.initial;
       calls := [] |}.
Proof. reflexivity. Qed.

(** An invalid email wins over a password that is not a string. *)
Example runAction_otherBadEmail :
  Sample.runAction Sample.otherBadEmail
  = {| result := json (JObject [("errors",
                         JObject [("email", JString "Email is invalid")])])
                      (Some 400%Z);
       world := Sample.initial;
       calls := [] |}.
Proof. reflexivity. Qed.

(** * The statements on the concrete deployment *)

Lemma action_success_delegates_witness :
  Sample.validateEmail (FormData.get Sample.goodForm "email") = true
  /\ 8 <= String.length "racheliscool"
  /\ exists args : CreateUserSessionArgs,
       calls (Sample.runAction Sample.goodForm)
         = [CallVerifyLogin (Some (EntryString "rachel@remix.run")) "racheliscool";
            CallCreateUserSession args]
       /\ userId args = "ckx1"
       /\ redirectTo args = "/notes/new".
Proof.
  split; [reflexivity |].
  split; [simpl; lia |].
  destruct (@action_success_delegates Sample.validateEmail Sample.World
              Sample.getUserId Sample.verifyLogin Sample.createUserSession
              (Sample.submit Sample.goodForm) Sample.initial
              "racheliscool" Sample.rachel)
    as [args [Hcalls [_ [_ [Hid [Hto _]]]]]];
    [reflexivity | reflexivity | simpl; lia | reflexivity |].
  exists args.
  split; [exact Hcalls |].
  split; [exact Hid |].
  apply Hto; reflexivity.
Defined.

Lemma action_validation_order_witness :
  errorField "email" (result (Sample.runAction Sample.otherBadEmail))
    = Some (JString "Email is invalid")
  /\ errorField "password" (result (Sample.runAction Sample.noPassword))
    = Some (JString "Password is required")
  /\ calls (Sample.runAction Sample.shortPassword) = []
  /\ 8 <= String.length "racheliscool".
Proof.
  pose proof (@action_validation_order Sample.validateEmail Sample.World
                Sample.getUserId Sample.verifyLogin Sample.createUserSession) as H.
  split.
  { apply (proj1 (H (Sample.submit Sample.otherBadEmail) Sample.initial)).
    reflexivity. }
  split.
  { apply (proj1 (proj2 (H (Sample.submit Sample.noPassword) Sample.initial)));
      reflexivity. }
  split.
  { apply (proj1 (proj2 (proj2 (H (Sample.submit Sample.shortPassword)
                                   Sample.initial))) "rachel");
      [reflexivity | reflexivity | simpl; lia]. }
  apply (proj2 (proj2 (proj2 (H (Sample.submit Sample.goodForm) Sample.initial)))
           (Some (EntryString "rachel@remix.run")) "racheliscool").
  simpl; left; reflexivity.
Defined.

Lemma loader_redirects_authenticated_witness :
  result (run Sample.getUserId Sample.verifyLogin Sample.createUserSession
              (loader (Sample.visit [("Cookie", "ckx1")])) Sample.initial)
    = redirect "/"
  /\ result (run Sample.getUserId Sample.verifyLogin Sample.createUserSession
                 (loader (Sample.visit [])) Sample.initial)
    = json (JObject []) None.
Proof.
  split.
  - apply (proj1 (@loader_redirects_authenticated Sample.World
                    Sample.getUserId Sample.verifyLogin Sample.createUserSession
                    (Sample.visit [("Cookie", "ckx1")]) Sample.initial) "ckx1");
      [reflexivity | discriminate].
  - apply (proj2 (@loader_redirects_authenticated Sample.World
                    Sample.getUserId Sample.verifyLogin Sample.createUserSession
                    (Sample.visit []) Sample.initial));
      reflexivity.
Defined.

Lemma action_rejects_unknown_credentials_witness :
  fst (Sample.verifyLogin (Some (EntryString "rachel@remix.run"))
         "rachelisnotcool" Sample.initial) = None
  /\ status (result (Sample.runAction Sample.wrongPassword)) = 400%Z
  /\ errorField "email" (result (Sample.runAction Sample.wrongPassword))
     = Some (JString "Invalid email or password").
Proof.
  split; [reflexivity |].
  apply (@action_rejects_unknown_credentials Sample.validateEmail Sample.World
           Sample.getUserId Sample.verifyLogin Sample.createUserSession
           (Sample.submit Sample.wrongPassword) Sample.initial "rachelisnotcool");
    [reflexivity | reflexivity | simpl; lia | reflexivity].
Defined.

Lemma action_rejects_invalid_email_witness :
  Sample.validateEmail (FormData.get Sample.badEmail "email") = false
  /\ status (result (Sample.runAction Sample.badEmail)) = 400%Z
  /\ header "Content-Type" (result (Sample.runAction Sample.badEmail))
     = Some "application/json; charset=utf-8"
  /\ exists message : string,
       body (result (Sample.runAction Sample.badEmail))
         = Some (JObject [("errors", JObject [("email", JString message)])])
       /\ errorField "email" (result (Sample.runAction Sample.badEmail))
          = Some (JString message).
Proof.
  split; [reflexivity |].
  apply (@action_rejects_invalid_email Sample.validateEmail Sample.World
           Sample.getUserId Sample.verifyLogin Sample.createUserSession
           (Sample.submit Sample.badEmail) Sample.initial).
  reflexivity.
Defined.

Lemma action_rejects_short_password_witness :
  String.length "rachel" < 8
  /\ status (result (Sample.runAction Sample.shortPassword)) = 400%Z
  /\ exists message : string,
       errorField "password" (result (Sample.runAction Sample.shortPassword))
       = Some (JString message).
Proof.
  split; [simpl; lia |].
  apply (@action_rejects_short_password Sample.validateEmail Sample.World
           Sample.getUserId Sample.verifyLogin Sample.createUserSession
           (Sample.submit Sample.shortPassword) Sample.initial);
    [reflexivity |].
  right; right; exists "rachel"; split; [reflexivity | simpl; lia].
Defined.

Lemma action_remember_flag_witness :
  In (CallCreateUserSession Sample.goodSession)
     (calls (Sample.runAction Sample.goodForm))
  /\ (remember Sample.goodSession = true <->
      FormData.get Sample.goodForm "remember" = Some (EntryString "on")).
Proof.
  assert (Hin : In (CallCreateUserSession Sample.goodSession)
                   (calls (Sample.runAction Sample.goodForm))).
  { simpl; right; left; reflexivity. }
  split; [exact Hin |].
  exact (proj1 (@action_remember_flag Sample.validateEmail Sample.World
                  Sample.getUserId Sample.verifyLogin Sample.createUserSession
                  (Sample.submit Sample.goodForm) Sample.initial
                  Sample.goodSession Hin)).
Defined.

Lemma action_error_single_field_witness :
  (forall args,
      ~ In (CallCreateUserSession args) (calls (Sample.runAction Sample.noPassword)))
  /\ status (result (Sample.runAction Sample.noPassword)) = 400%Z
  /\ xorb (isSet (errorField "email" (result (Sample.runAction Sample.noPassword))))
          (isSet (errorField "password" (result (Sample.runAction Sample.noPassword))))
     = true.
Proof.
  assert (Hnone : forall args,
             ~ In (CallCreateUserSession args)
                  (calls (Sample.runAction Sample.noPassword))).
  { intros args Hin; exact Hin. }
  split; [exact Hnone |].
  exact (@action_error_single_field Sample.validateEmail Sample.World
           Sample.getUserId Sample.verifyLogin Sample.createUserSession
           (Sample.submit Sample.noPassword) Sample.initial Hnone).
Defined.

Lemma action_failure_creates_no_session_witness :
  fst (Sample.verifyLogin (Some (EntryString "nobody@remix.run"))
         "whatever-it-is" Sample.initial) = None
  /\ status (result (Sample.runAction Sample.unknownAccount)) = 400%Z
  /\ (forall args,
        ~ In (CallCreateUserSession args)
             (calls (Sample.runAction Sample.unknownAccount)))
  /\ Sample.sessions (world (Sample.runAction Sample.unknownAccount))
     = Sample.sessions Sample.initial.
Proof.
  split; [reflexivity |].
  destruct (@action_failure_creates_no_session Sample.validateEmail Sample.World
              Sample.getUserId Sample.verifyLogin Sample.createUserSession
              (Sample.submit Sample.unknownAccount) Sample.initial
              (list CreateUserSessionArgs) Sample.sessions)
    as [Hstatus [Hnone [_ Hkept]]].
  - intros e p w0; unfold Sample.verifyLogin.
    destruct (asString e); reflexivity.
  - right; right; right.
    exists "whatever-it-is"; split; reflexivity.
  - split; [exact Hstatus |].
    split; [exact Hnone | exact Hkept].
Defined.

Lemma action_error_messages_constant_witness :
  failedCheck Sample.validateEmail Sample.verifyLogin
              (Sample.submit Sample.wrongPassword) Sample.initial = Some Credentials
  /\ failedCheck Sample.validateEmail Sample.verifyLogin
                 (Sample.submit Sample.unknownAccount) Sample.initial = Some Credentials
  /\ result (Sample.runAction Sample.wrongPassword)
     = result (Sample.runAction Sample.unknownAccount).
Proof.
  split; [reflexivity |].
  split; [reflexivity |].
  apply (proj2 (@action_error_messages_constant Sample.validateEmail Sample.World
                  Sample.getUserId Sample.verifyLogin Sample.createUserSession)
           (Sample.submit Sample.wrongPassword) (Sample.submit Sample.unknownAccount)
           Sample.initial Sample.initial Credentials);
    reflexivity.
Defined.

(** * The further statements on the concrete deployment *)

Lemma action_session_only_after_verification_witness :
  In (CallCreateUserSession Sample.goodSession)
     (calls (Sample.runAction Sample.goodForm))
  /\ Sample.validateEmail (FormData.get Sample.goodForm "email") = true
  /\ exists (p : string) (user : User),
       FormData.get Sample.goodForm "password" = Some (EntryString p)
       /\ 8 <= String.length p
       /\ fst (Sample.verifyLogin (FormData.get Sample.goodForm "email") p
                Sample.initial) = Some user
       /\ userId Sample.goodSession = id user.
Proof.
  assert (Hin : In (CallCreateUserSession Sample.goodSession)
                   (calls (Sample.runAction Sample.goodForm))).
  { simpl; right; left; reflexivity. }
  split; [exact Hin |].
  destruct (@action_session_only_after_verification Sample.validateEmail
              Sample.World Sample.getUserId Sample.verifyLogin
              Sample.createUserSession (Sample.submit Sample.goodForm)
              Sample.initial Sample.goodSession Hin)
    as [Hvalid [p [user [Hp [Hlen [Huser [Hid _]]]]]]].
  split; [exact Hvalid |].
  exists p, user; repeat split; assumption.
Defined.

Lemma LoginPage_redirectTo_default_witness :
  LoginPage_redirectTo Sample.searchParams = "/notes/42"
  /\ LoginPage_redirectTo [("redirectTo", "")] = "/notes"
  /\ LoginPage_redirectTo [] = "/notes".
Proof.
  split.
  { apply (proj1 (proj2 (LoginPage_redirectTo_default Sample.searchParams))
             "/notes/42"); [reflexivity | discriminate]. }
  split.
  { apply (proj2 (proj2 (LoginPage_redirectTo_default [("redirectTo", "")]))).
    right; reflexivity. }
  apply (proj2 (proj2 (LoginPage_redirectTo_default []))).
  left; reflexivity.
Defined.

Lemma LoginPage_focus_after_rejection_witness :
  (forall args,
      ~ In (CallCreateUserSession args) (calls (Sample.runAction Sample.noPassword)))
  /\ focusEffect (body (result (Sample.runAction Sample.noPassword)))
     = Some PasswordField.
Proof.
  assert (Hnone : forall args,
             ~ In (CallCreateUserSession args)
                  (calls (Sample.runAction Sample.noPassword))).
  { intros args Hin; exact Hin. }
  split; [exact Hnone |].
  destruct (@LoginPage_focus_after_rejection Sample.validateEmail Sample.World
              Sample.getUserId Sample.verifyLogin Sample.createUserSession
              (Sample.submit Sample.noPassword) Sample.initial Hnone)
    as [[Hfocus _] | [Hfocus _]].
  - discriminate Hfocus.
  - exact Hfocus.
Defined.

Lemma LoginPage_focus_matches_invalid_witness :
  (isInvalid "email" Sample.bothErrors = Some true
   /\ isInvalid "password" Sample.bothErrors = Some true
   /\ focusEffect Sample.bothErrors = Some EmailField)
  /\ (actionErrors "email" Sample.emptyEmailMessage = Some (JString "")
      /\ isInvalid "email" Sample.emptyEmailMessage = None
      /\ isInvalid "password" Sample.emptyEmailMessage = Some true
      /\ focusEffect Sample.emptyEmailMessage = Some PasswordField).
Proof.
  pose proof (LoginPage_focus_matches_invalid Sample.bothErrors)
    as [Hboth [_ [_ [HbothMarked _]]]].
  pose proof (LoginPage_focus_matches_invalid Sample.emptyEmailMessage)
    as [_ [Hpassword [_ [Hmarked Hunmarked]]]].
  assert (Hemail : isInvalid "email" Sample.bothErrors = Some true).
  { apply (HbothMarked "email"); left.
    exists "Email is invalid"; split; [reflexivity | discriminate]. }
  assert (Hempty : isInvalid "email" Sample.emptyEmailMessage = None).
  { apply (Hunmarked "email"); left; reflexivity. }
  assert (Hpw : isInvalid "password" Sample.emptyEmailMessage = Some true).
  { apply (Hmarked "password"); left.
    exists "Password is required"; split; [reflexivity | discriminate]. }
  split.
  - split; [exact Hemail |].
    split; [| apply Hboth; exact Hemail].
    apply (HbothMarked "password"); left.
    exists "Password is required"; split; [reflexivity | discriminate].
  - split; [reflexivity |].
    split; [exact Hempty |].
    split; [exact Hpw |].
    apply Hpassword; split; [exact Hempty | exact Hpw].
Defined.


Lemma LoginPage_submission_rejections_witness :
  (forall args,
      ~ In (CallCreateUserSession args)
           (calls (run Sample.getUserId Sample.verifyLogin Sample.createUserSession
                       (action Sample.validateEmail
                          (Sample.pageRequest Sample.searchParams
                             Sample.emptyPassword))
                       Sample.initial)))
  /\ exists field message,
       In message ["Email is invalid"; "Password is too short";
                   "Invalid email or password"]
       /\ result (run Sample.getUserId Sample.verifyLogin Sample.createUserSession
                      (action Sample.validateEmail
                         (Sample.pageRequest Sample.searchParams
                            Sample.emptyPassword))
                      Sample.initial)
          = json (JObject [("errors", JObject [(field, JString message)])])
                 (Some 400%Z).
Proof.
  assert (Hnone : forall args,
             ~ In (CallCreateUserSession args)
                  (calls (run Sample.getUserId Sample.verifyLogin
                              Sample.createUserSession
                              (action Sample.validateEmail
                                 (Sample.pageRequest Sample.searchParams
                                    Sample.emptyPassword))
                              Sample.initial))).
  { intros args Hin; exact Hin. }
  split; [exact Hnone |].
  exact (@LoginPage_submission_rejections Sample.validateEmail Sample.World
           Sample.getUserId Sample.verifyLogin Sample.createUserSession
           Sample.searchParams Sample.emptyPassword
           (Sample.pageRequest Sample.searchParams Sample.emptyPassword)
           Sample.initial eq_refl Hnone).
Defined.
